(** * Twitter user-blocking blocks: block, unblock, list blocked users

    A shallow embedding of
    [autogpt_platform/backend/backend/blocks/twitter/users/blocks.py].

    The three block classes of the file wrap one call each of the tweepy
    client.  Their static helpers run inside [try ... except
    tweepy.TweepyException: raise], their [run] methods are generators whose
    whole body sits inside [try ... except Exception as e: yield "error", ...].

    The embedding keeps that shape: a small monad [Gen] threads the history
    of vendor calls, collects the values a generator yields and propagates
    exceptions; [try_except] is Python's handler clause. *)

From Stdlib Require Import ZArith DecimalString DecimalPos DecimalZ.
From stdpp Require Import gmap strings list.

Set Warnings "-register-all,-clear-no-such-hyp".

(** ** Python values *)

(** The values that travel through request parameters, response metadata
    and block outputs. *)
Inductive pyval :=
  | PyNone
  | PyBool (b : bool)
  | PyInt (z : Z)
  | PyStr (s : string)
  | PyList (l : list pyval)
  | PyDict (d : gmap string pyval).

(** [bool(d)] for a dict, [bool(l)] for a list: both go through [len]. *)
Definition dict_truthy {V} (d : gmap string V) : bool := negb (size d =? 0)%nat.

Definition list_truthy {A} (l : list A) : bool :=
  match l with [] => false | _ :: _ => true end.

(** Python truthiness, as tested by [if v:]. *)
Definition truthy (v : pyval) : bool :=
  match v with
  | PyNone => false
  | PyBool b => b
  | PyInt z => negb (z =? 0)%Z
  | PyStr s => negb (String.eqb s "")
  | PyList l => list_truthy l
  | PyDict d => dict_truthy d
  end.

(** [str(n)] for an int: the decimal numeral, with a leading minus sign
    for negative numbers. *)
Definition str_int (z : Z) : string := NilZero.string_of_int (Z.to_int z).

(** An [int | None] and a [str | None] seen as plain values. *)
Definition py_of_opt_int (o : option Z) : pyval := from_option PyInt PyNone o.
Definition py_of_opt_str (o : option string) : pyval := from_option PyStr PyNone o.
Definition py_of_strs (l : list string) : pyval := PyList (PyStr <$> l).

(** ** Exceptions *)

(** Classes of the exceptions the code can meet.  tweepy's own hierarchy is
    [TweepyException] with subclass [HTTPException], itself the parent of the
    per-status classes.  [OtherException] stands for every class that derives
    from [Exception] but not from [TweepyException] ([ValueError],
    [TypeError], [requests.ConnectionError], ...).  Every value of this type
    is an instance of Python's [Exception]; the interpreter's own
    [KeyboardInterrupt], [SystemExit] and [GeneratorExit] are not raised by
    the code modelled here. *)
Inductive exc_class :=
  | TweepyException
  | HTTPException
  | BadRequest
  | Unauthorized
  | Forbidden
  | NotFound
  | TooManyRequests
  | TwitterServerError
  | OtherException (name : string).

Record exception := Exc { exc_class_of : exc_class; exc_message : string }.

(** [isinstance(e, tweepy.TweepyException)], the test of the helpers'
    [except tweepy.TweepyException] clause. *)
Definition isinstance_TweepyException (e : exception) : bool :=
  match exc_class_of e with
  | OtherException _ => false
  | _ => true
  end.

(** [isinstance(e, Exception)], the test of [except Exception as e]. *)
Definition isinstance_Exception (e : exception) : bool := true.

Inductive result (A : Type) :=
  | Return (a : A)
  | Raise (e : exception).
Arguments Return {A} a.
Arguments Raise {A} e.

(** ** The vendor: tweepy's client and its responses *)

(** [tweepy.User], reduced to the two attributes the code reads. tweepy
    stores [id] as an int and [username] as a str. *)
Record User := { id : Z; username : string }.

(** [tweepy.client.Response], a named tuple of four fields. [data] is
    [None] or the list of users; the other three are a dict, a list and a
    dict. *)
Record Response := {
  data : option (list User);
  includes : gmap string pyval;
  errors : list pyval;
  meta : gmap string pyval;
}.

(** The three requests the code sends, with the arguments it passes. *)
Inductive api_call :=
  | ApiUnblock (bearer_token target_user_id : string) (user_auth : bool)
  | ApiBlock (bearer_token target_user_id : string) (user_auth : bool)
  | ApiGetBlocked (bearer_token : string) (params : gmap string pyval).

(** ** Collaborators outside the file

    What [blocks.py] imports and calls but does not define, taken as
    parameters: the vendor's answer to a request (which may depend on the
    requests made before), the parameter builder, the serializer of a
    response's [includes], and the function that turns an exception into the
    message of the ["error"] output.  The builder and the serializer run
    inside the helper's [try] and may raise. *)
Class Platform := {
  UserExpansionsFilter : Type;
  TweetFieldsFilter : Type;
  TweetUserFieldsFilter : Type;
  twitter : list api_call → api_call → result Response;
  (** [UserExpansionsBuilder(params).add_expansions(e).add_tweet_fields(t)
      .add_user_fields(u).build()] *)
  UserExpansionsBuilder_build :
    gmap string pyval → option UserExpansionsFilter → option TweetFieldsFilter →
    option TweetUserFieldsFilter → result (gmap string pyval);
  IncludesSerializer_serialize : gmap string pyval → result (gmap string pyval);
  handle_tweepy_exception : exception → string;
}.

(** ** The monad of helpers and generators *)

(** One value yielded by a [run] generator: output name and data. *)
Definition output : Type := string * pyval.

(** A computation starts from the history of vendor calls made so far and
    ends with a value or a raised exception, the outputs it yielded and the
    extended history.  A generator is read as run to exhaustion by a
    consumer that only iterates over it, as the platform's executor does:
    the outputs are its yields in order. *)
Definition Gen (A : Type) : Type :=
  list api_call → result A * list output * list api_call.

Definition outcome {A} (r : result A * list output * list api_call) : result A := r.1.1.
Definition yielded {A} (r : result A * list output * list api_call) : list output := r.1.2.
Definition history {A} (r : result A * list output * list api_call) : list api_call := r.2.

#[global] Instance gen_ret : MRet Gen := λ A a h, (Return a, [], h).

#[global] Instance gen_bind : MBind Gen := λ A B k m h,
  match m h with
  | (Return a, out, h') =>
      let '(r, out', h'') := k a h' in (r, out ++ out', h'')
  | (Raise e, out, h') => (Raise e, out, h')
  end.

(** [raise e] *)
Definition raise {A} (e : exception) : Gen A := λ h, (Raise e, [], h).

(** [yield name, value] *)
Definition yield (name : string) (value : pyval) : Gen unit :=
  λ h, (Return tt, [(name, value)], h).

(** A call of a collaborator that returns or raises, without touching the
    vendor. *)
Definition lift {A} (r : result A) : Gen A := λ h, (r, [], h).

(** [if c: body] *)
Definition when (c : bool) (body : Gen unit) : Gen unit :=
  if c then body else mret tt.

(** [try: body  except C as e: handler]: an exception of the body that
    matches the clause runs the handler, after the outputs the body had
    already yielded; any other one propagates. *)
Definition try_except {A} (body : Gen A) (catches : exception → bool)
    (handler : exception → Gen A) : Gen A := λ h,
  match body h with
  | (Return a, out, h') => (Return a, out, h')
  | (Raise e, out, h') =>
      if catches e
      then let '(r, out', h'') := handler e h' in (r, out ++ out', h'')
      else (Raise e, out, h')
  end.

(** [credentials.access_token.get_secret_value()] *)
Record TwitterCredentials := { access_token : string }.
Definition get_secret_value (secret : string) : string := secret.

(** [tweepy.Client(bearer_token=...)] only stores the token. *)
Record Client := { bearer_token : string }.
Definition tweepy_Client (token : string) : Client := {| bearer_token := token |}.

Section client.
Context `{Platform}.

(** A request to the vendor: the answer is the vendor's, the call is
    recorded. *)
Definition vendor_call (c : api_call) : Gen Response :=
  λ h, (twitter h c, [], h ++ [c]).

Definition Client_unblock (client : Client) (target_user_id : string)
    (user_auth : bool) : Gen Response :=
  vendor_call (ApiUnblock (bearer_token client) target_user_id user_auth).

Definition Client_block (client : Client) (target_user_id : string)
    (user_auth : bool) : Gen Response :=
  vendor_call (ApiBlock (bearer_token client) target_user_id user_auth).

(** [client.get_blocked] called with the entries of [params] as keyword
    arguments. *)
Definition Client_get_blocked (client : Client) (params : gmap string pyval)
    : Gen Response :=
  vendor_call (ApiGetBlocked (bearer_token client) params).
End client.

(** ** TwitterUnblockUserBlock *)

Module TwitterUnblockUserBlock.
Record Input := { target_user_id : string }.

Section defs.
Context `{Platform}.

Definition unblock_user (credentials : TwitterCredentials)
    (target_user_id : string) : Gen bool :=
  try_except
    (let client := tweepy_Client (get_secret_value (access_token credentials)) in
     _ ← Client_unblock client target_user_id false;
     mret true)
    isinstance_TweepyException
    (λ e, raise e).

Definition run (input_data : Input) (credentials : TwitterCredentials)
    : Gen unit :=
  try_except
    (success ← unblock_user credentials (target_user_id input_data);
     yield "success" (PyBool success))
    isinstance_Exception
    (λ e, yield "error" (PyStr (handle_tweepy_exception e))).
End defs.
End TwitterUnblockUserBlock.

(** ** TwitterBlockUserBlock *)

Module TwitterBlockUserBlock.
Record Input := { target_user_id : string }.

Section defs.
Context `{Platform}.

Definition block_user (credentials : TwitterCredentials)
    (target_user_id : string) : Gen bool :=
  try_except
    (let client := tweepy_Client (get_secret_value (access_token credentials)) in
     _ ← Client_block client target_user_id false;
     mret true)
    isinstance_TweepyException
    (λ e, raise e).

Definition run (input_data : Input) (credentials : TwitterCredentials)
    : Gen unit :=
  try_except
    (success ← block_user credentials (target_user_id input_data);
     yield "success" (PyBool success))
    isinstance_Exception
    (λ e, yield "error" (PyStr (handle_tweepy_exception e))).
End defs.
End TwitterBlockUserBlock.

(** ** TwitterGetBlockedUsersBlock *)

Module TwitterGetBlockedUsersBlock.
Record Input `{Platform} := {
  max_results : option Z;
  pagination_token : option string;
  expansions : option UserExpansionsFilter;
  tweet_fields : option TweetFieldsFilter;
  user_fields : option TweetUserFieldsFilter;
}.

(** The dict literal bound to [params] before the builder runs. *)
Definition request_params (max_results : option Z)
    (pagination_token : option string) : gmap string pyval :=
  {[ "max_results" := py_of_opt_int max_results;
     "pagination_token" :=
       (if bool_decide (pagination_token = Some "")
        then PyNone else py_of_opt_str pagination_token);
     "user_auth" := PyBool false ]}.

(** [if response.data: for user in response.data: ...], from empty
    [user_ids] and [usernames]: each iteration appends to both lists. *)
Definition collect_users (data : option (list User)) : list string * list string :=
  match data with
  | Some ((_ :: _) as users) =>
      fold_left
        (λ '(user_ids, usernames) user,
           (user_ids ++ [str_int (id user)], usernames ++ [username user]))
        users ([], [])
  | _ => ([], [])
  end.

(** [if response.meta: meta = response.meta; if "next_token" in meta:
    next_token = meta["next_token"]], from [meta = {}] and
    [next_token = None]. *)
Definition read_meta (response_meta : gmap string pyval)
    : gmap string pyval * pyval :=
  if dict_truthy response_meta then
    let meta := response_meta in
    match meta !! "next_token" with
    | Some token => (meta, token)
    | None => (meta, PyNone)
    end
  else (∅, PyNone).

Section defs.
Context `{Platform}.

Definition get_blocked_users (credentials : TwitterCredentials)
    (max_results : option Z) (pagination_token : option string)
    (expansions : option UserExpansionsFilter)
    (tweet_fields : option TweetFieldsFilter)
    (user_fields : option TweetUserFieldsFilter)
    : Gen (gmap string pyval * gmap string pyval * list string * list string * pyval) :=
  try_except
    (let client := tweepy_Client (get_secret_value (access_token credentials)) in
     let params := request_params max_results pagination_token in
     params ← lift (UserExpansionsBuilder_build params expansions tweet_fields user_fields);
     response ← Client_get_blocked client params;
     included ← lift (IncludesSerializer_serialize (includes response));
     let '(user_ids, usernames) := collect_users (data response) in
     let '(meta, next_token) := read_meta (meta response) in
     if list_truthy user_ids && list_truthy usernames
     then mret (included, meta, user_ids, usernames, next_token)
     else raise (Exc TweepyException "No blocked users found"))
    isinstance_TweepyException
    (λ e, raise e).

Definition run (input_data : Input) (credentials : TwitterCredentials)
    : Gen unit :=
  try_except
    ('(included, meta, user_ids, usernames, next_token) ←
       get_blocked_users credentials
         (max_results input_data) (pagination_token input_data)
         (expansions input_data) (tweet_fields input_data)
         (user_fields input_data);
     when (list_truthy user_ids) (yield "user_ids" (py_of_strs user_ids));;
     when (list_truthy usernames) (yield "usernames_" (py_of_strs usernames));;
     when (dict_truthy included) (yield "included" (PyDict included));;
     when (dict_truthy meta) (yield "meta" (PyDict meta));;
     when (truthy next_token) (yield "next_token" next_token))
    isinstance_Exception
    (λ e, yield "error" (PyStr (handle_tweepy_exception e))).
End defs.
End TwitterGetBlockedUsersBlock.

(** ** Vocabulary of the properties *)

(** The call of the helper that [TwitterGetBlockedUsersBlock.run] makes. *)
Local Abbreviation listing_of input_data credentials :=
  (TwitterGetBlockedUsersBlock.get_blocked_users credentials
     (TwitterGetBlockedUsersBlock.max_results input_data)
     (TwitterGetBlockedUsersBlock.pagination_token input_data)
     (TwitterGetBlockedUsersBlock.expansions input_data)
     (TwitterGetBlockedUsersBlock.tweet_fields input_data)
     (TwitterGetBlockedUsersBlock.user_fields input_data)).

(** The names of the outputs that carry a success payload, over the three
    blocks' [Output] schemas; the remaining field of each schema is
    ["error"]. *)
Definition payload_names : list string :=
  ["success"; "user_ids"; "usernames_"; "included"; "meta"; "next_token"].

Definition is_error (o : output) : bool := String.eqb o.1 "error".
Definition is_payload (o : output) : bool := bool_decide (o.1 ∈ payload_names).

(** The outputs of one invocation are all ["error"] outputs or all payload
    outputs, and in no case some of each. *)
Definition error_or_payload (outs : list output) : Prop :=
  existsb is_error outs && existsb is_payload outs = false ∧
  (Forall (λ o, o.1 = "error") outs ∨ Forall (λ o, o.1 ∈ payload_names) outs).

(** A helper that, started after the calls [h], sends the vendor at most
    one request and lets a [TweepyException] of that request through as it
    is. *)
Definition no_retry `{Platform} {A} (helper : Gen A) (h : list api_call) : Prop :=
  ∃ calls,
    history (helper h) = h ++ calls ∧
    length calls ≤ 1 ∧
    ∀ c e, c ∈ calls → twitter h c = Raise e →
           isinstance_TweepyException e = true →
           outcome (helper h) = Raise e.

(** ** A scripted platform

    A vendor with fixed answers, around the inputs of the blocks' own
    [test_input] and [test_mock]: user ["12345"] can be blocked and
    unblocked, any other target is unknown; the listing answers with two
    users, except for the token ["nobody"], which has blocked no one, and
    the token ["expired"], which is refused. *)
Module Scenario.
Definition listing : Response := {|
  data := Some [ {| id := 12345; username := "testuser1" |};
                 {| id := 67890; username := "testuser2" |} ];
  includes := ∅;
  errors := [];
  meta := {[ "result_count" := PyInt 2; "next_token" := PyStr "page2" ]};
|}.

Definition empty_listing : Response := {|
  data := None;
  includes := ∅;
  errors := [];
  meta := {[ "result_count" := PyInt 0 ]};
|}.

Definition acknowledged : Response := {|
  data := None; includes := ∅; errors := []; meta := ∅;
|}.

Definition answer (h : list api_call) (c : api_call) : result Response :=
  match c with
  | ApiUnblock _ target _ | ApiBlock _ target _ =>
      if String.eqb target "12345" then Return acknowledged
      else Raise (Exc NotFound "404 Not Found")
  | ApiGetBlocked token _ =>
      if String.eqb token "expired" then Raise (Exc Unauthorized "401 Unauthorized")
      else if String.eqb token "nobody" then Return empty_listing
      else Return listing
  end.

#[export] Instance platform : Platform := {|
  UserExpansionsFilter := unit;
  TweetFieldsFilter := unit;
  TweetUserFieldsFilter := unit;
  twitter := answer;
  UserExpansionsBuilder_build := λ params _ _ _, Return params;
  IncludesSerializer_serialize := λ includes, Return includes;
  handle_tweepy_exception := exc_message;
|}.

Definition credentials : TwitterCredentials := {| access_token := "token" |}.
Definition nobody : TwitterCredentials := {| access_token := "nobody" |}.
Definition expired : TwitterCredentials := {| access_token := "expired" |}.

Definition unblock_known : TwitterUnblockUserBlock.Input :=
  {| TwitterUnblockUserBlock.target_user_id := "12345" |}.
Definition unblock_unknown : TwitterUnblockUserBlock.Input :=
  {| TwitterUnblockUserBlock.target_user_id := "999" |}.
Definition block_known : TwitterBlockUserBlock.Input :=
  {| TwitterBlockUserBlock.target_user_id := "12345" |}.
Definition block_unknown : TwitterBlockUserBlock.Input :=
  {| TwitterBlockUserBlock.target_user_id := "999" |}.

(** What the helper makes of [listing]. *)
Definition blocked_users
    : gmap string pyval * gmap string pyval * list string * list string * pyval :=
  (∅, meta listing, ["12345"; "67890"], ["testuser1"; "testuser2"], PyStr "page2").

Definition test_input : TwitterGetBlockedUsersBlock.Input := {|
  TwitterGetBlockedUsersBlock.max_results := Some 10%Z;
  TwitterGetBlockedUsersBlock.pagination_token := Some "";
  TwitterGetBlockedUsersBlock.expansions := None;
  TwitterGetBlockedUsersBlock.tweet_fields := None;
  TwitterGetBlockedUsersBlock.user_fields := None;
|}.

(** The same vendor behind a parameter builder that rejects its input, and
    behind a serializer that fails on the includes. *)
Definition rejected : exception := Exc (OtherException "ValueError") "bad expansions".
Definition unreadable : exception := Exc (OtherException "TypeError") "bad includes".

Definition broken_builder : Platform := {|
  UserExpansionsFilter := unit;
  TweetFieldsFilter := unit;
  TweetUserFieldsFilter := unit;
  twitter := answer;
  UserExpansionsBuilder_build := λ _ _ _ _, Raise rejected;
  IncludesSerializer_serialize := λ includes, Return includes;
  handle_tweepy_exception := exc_message;
|}.

Definition broken_serializer : Platform := {|
  UserExpansionsFilter := unit;
  TweetFieldsFilter := unit;
  TweetUserFieldsFilter := unit;
  twitter := answer;
  UserExpansionsBuilder_build := λ params _ _ _, Return params;
  IncludesSerializer_serialize := λ _, Raise unreadable;
  handle_tweepy_exception := exc_message;
|}.

Definition rejected_input : @TwitterGetBlockedUsersBlock.Input broken_builder :=
  @TwitterGetBlockedUsersBlock.Build_Input broken_builder
    (Some 10%Z) (Some "") (Some tt) None None.

Definition unreadable_input : @TwitterGetBlockedUsersBlock.Input broken_serializer :=
  @TwitterGetBlockedUsersBlock.Build_Input broken_serializer
    (Some 10%Z) (Some "") None None None.

Definition second_page : @TwitterGetBlockedUsersBlock.Input platform := {|
  TwitterGetBlockedUsersBlock.max_results := None;
  TwitterGetBlockedUsersBlock.pagination_token := Some "page2";
  TwitterGetBlockedUsersBlock.expansions := None;
  TwitterGetBlockedUsersBlock.tweet_fields := None;
  TwitterGetBlockedUsersBlock.user_fields := None;
|}.
End Scenario.

(** * Properties *)

(** ** Equations of the monad *)

Section gen_equations.
Context {A B : Type}.
Implicit Types (m : Gen A) (k : A → Gen B) (h : list api_call).

Lemma bind_Return m k h a out h' :
  m h = (Return a, out, h') →
  (m ≫= k) h = ((k a h').1.1, out ++ (k a h').1.2, (k a h').2).
Proof.
  intros Hm. unfold mbind, gen_bind. rewrite Hm.
  by destruct (k a h') as [[r out'] h''].
Qed.

Lemma bind_Raise m k h e out h' :
  m h = (Raise e, out, h') → (m ≫= k) h = (Raise e, out, h').
Proof. intros Hm. unfold mbind, gen_bind. by rewrite Hm. Qed.

Lemma try_except_Return m catches handler h a out h' :
  m h = (Return a, out, h') → try_except m catches handler h = (Return a, out, h').
Proof. intros Hm. unfold try_except. by rewrite Hm. Qed.

Lemma try_except_caught m catches (handler : exception → Gen A) h e out h' :
  m h = (Raise e, out, h') → catches e = true →
  try_except m catches handler h
  = ((handler e h').1.1, out ++ (handler e h').1.2, (handler e h').2).
Proof.
  intros Hm Hc. unfold try_except. rewrite Hm, Hc.
  by destruct (handler e h') as [[r out'] h''].
Qed.

(** A handler that is a bare [raise] leaves the body as it is, whatever
    the clause catches. *)
Lemma try_except_reraise m catches h :
  try_except m catches (λ e, raise e) h = m h.
Proof.
  unfold try_except, raise.
  destruct (m h) as [[[a|e] out] h']; [done|].
  destruct (catches e); by rewrite ?app_nil_r.
Qed.
End gen_equations.

(** ** The helpers, one vendor call each *)

Section helpers.
Context `{Platform}.
Implicit Types (h : list api_call) (credentials : TwitterCredentials).

Lemma vendor_call_eq (c : api_call) h :
  vendor_call c h = (twitter h c, [], h ++ [c]).
Proof. reflexivity. Qed.

Lemma unblock_user_eq credentials target h :
  let c := ApiUnblock (access_token credentials) target false in
  TwitterUnblockUserBlock.unblock_user credentials target h
  = (match twitter h c with Return _ => Return true | Raise e => Raise e end,
     [], h ++ [c]).
Proof.
  intros c. unfold TwitterUnblockUserBlock.unblock_user.
  rewrite try_except_reraise.
  pose proof (vendor_call_eq c h) as Hc.
  destruct (twitter h c) as [response|e].
  - by rewrite (bind_Return _ _ _ _ _ _ Hc).
  - by rewrite (bind_Raise _ _ _ _ _ _ Hc).
Qed.

Lemma block_user_eq credentials target h :
  let c := ApiBlock (access_token credentials) target false in
  TwitterBlockUserBlock.block_user credentials target h
  = (match twitter h c with Return _ => Return true | Raise e => Raise e end,
     [], h ++ [c]).
Proof.
  intros c. unfold TwitterBlockUserBlock.block_user.
  rewrite try_except_reraise.
  pose proof (vendor_call_eq c h) as Hc.
  destruct (twitter h c) as [response|e].
  - by rewrite (bind_Return _ _ _ _ _ _ Hc).
  - by rewrite (bind_Raise _ _ _ _ _ _ Hc).
Qed.

(** The loop of [get_blocked_users] maps each user of the response to its
    id, printed, and to its name. *)
Lemma collect_users_loop (users : list User) (user_ids usernames : list string) :
  fold_left
    (λ '(user_ids, usernames) user,
       (user_ids ++ [str_int (id user)], usernames ++ [username user]))
    users (user_ids, usernames)
  = (user_ids ++ ((λ u, str_int (id u)) <$> users),
     usernames ++ (username <$> users)).
Proof.
  revert user_ids usernames.
  induction users as [|u users IH]; intros user_ids usernames; simpl.
  - by rewrite !app_nil_r.
  - by rewrite IH, <- !app_assoc.
Qed.

Lemma collect_users_eq (data : option (list User)) :
  TwitterGetBlockedUsersBlock.collect_users data
  = ((λ u, str_int (id u)) <$> default [] data, username <$> default [] data).
Proof.
  destruct data as [[|u users]|]; [done| |done].
  unfold TwitterGetBlockedUsersBlock.collect_users.
  by rewrite collect_users_loop.
Qed.

Lemma get_blocked_users_eq credentials max_results pagination_token
    expansions tweet_fields user_fields h :
  TwitterGetBlockedUsersBlock.get_blocked_users credentials max_results
    pagination_token expansions tweet_fields user_fields h
  = match UserExpansionsBuilder_build
            (TwitterGetBlockedUsersBlock.request_params max_results pagination_token)
            expansions tweet_fields user_fields with
    | Raise e => (Raise e, [], h)
    | Return params =>
        let c := ApiGetBlocked (access_token credentials) params in
        (match twitter h c with
         | Raise e => Raise e
         | Return response =>
             match IncludesSerializer_serialize (includes response) with
             | Raise e => Raise e
             | Return included =>
                 let users := TwitterGetBlockedUsersBlock.collect_users (data response) in
                 let m := TwitterGetBlockedUsersBlock.read_meta (meta response) in
                 if list_truthy users.1 && list_truthy users.2
                 then Return (included, m.1, users.1, users.2, m.2)
                 else Raise (Exc TweepyException "No blocked users found")
             end
         end, [], h ++ [c])
    end.
Proof.
  unfold TwitterGetBlockedUsersBlock.get_blocked_users.
  rewrite try_except_reraise. cbv zeta.
  unfold mbind, gen_bind, lift, Client_get_blocked, vendor_call.
  destruct (UserExpansionsBuilder_build _ _ _ _) as [params|e]; [|done].
  cbn [bearer_token tweepy_Client get_secret_value].
  destruct (twitter h _) as [response|e]; [|done].
  destruct (IncludesSerializer_serialize _) as [included|e]; [|done].
  destruct (TwitterGetBlockedUsersBlock.collect_users _) as [user_ids usernames].
  destruct (TwitterGetBlockedUsersBlock.read_meta _) as [m next_token].
  cbn [fst snd].
  by destruct (list_truthy user_ids && list_truthy usernames).
Qed.

Lemma get_blocked_users_Return credentials max_results pagination_token
    expansions tweet_fields user_fields h
    included m user_ids usernames next_token :
  outcome (TwitterGetBlockedUsersBlock.get_blocked_users credentials max_results
             pagination_token expansions tweet_fields user_fields h)
  = Return (included, m, user_ids, usernames, next_token) →
  list_truthy user_ids = true ∧ list_truthy usernames = true.
Proof.
  rewrite get_blocked_users_eq.
  destruct (UserExpansionsBuilder_build _ _ _ _) as [params|e]; [|done].
  cbv zeta. unfold outcome; cbn [fst].
  destruct (twitter h _) as [response|e]; [|done].
  destruct (IncludesSerializer_serialize _) as [included'|e]; [|done].
  destruct (list_truthy _ && list_truthy _) eqn:Hsome; [|done].
  intros [= _ _ <- <- _]. by apply andb_true_iff.
Qed.

(** Membership in the list of an output that is yielded on a condition. *)
Lemma elem_of_optional (b : bool) (o x : output) :
  o ∈ (if b then [x] else []) ↔ b = true ∧ o = x.
Proof.
  destruct b; [rewrite list_elem_of_singleton | rewrite elem_of_nil]; naive_solver.
Qed.

Lemma dict_truthy_nonempty {V} (d : gmap string V) :
  dict_truthy d = true ↔ d ≠ ∅.
Proof.
  unfold dict_truthy. rewrite negb_true_iff, Nat.eqb_neq.
  by rewrite map_size_empty_iff.
Qed.
End helpers.

(** ** The generators, in terms of their helpers *)

Section generators.
Context `{Platform}.
Implicit Types (h : list api_call) (credentials : TwitterCredentials).

Lemma unblock_run_eq input_data credentials h :
  let c := ApiUnblock (access_token credentials)
             (TwitterUnblockUserBlock.target_user_id input_data) false in
  TwitterUnblockUserBlock.run input_data credentials h
  = (Return tt,
     match twitter h c with
     | Return _ => [("success", PyBool true)]
     | Raise e => [("error", PyStr (handle_tweepy_exception e))]
     end, h ++ [c]).
Proof.
  intros c. unfold TwitterUnblockUserBlock.run.
  pose proof (unblock_user_eq credentials
                (TwitterUnblockUserBlock.target_user_id input_data) h) as Hu.
  cbv zeta in Hu. fold c in Hu.
  destruct (twitter h c) as [response|e].
  - rewrite (try_except_Return _ _ _ h tt [("success", PyBool true)] (h ++ [c]));
      [done|]. by rewrite (bind_Return _ _ _ _ _ _ Hu).
  - rewrite (try_except_caught _ _ _ h e [] (h ++ [c])); [done| |done].
    by rewrite (bind_Raise _ _ _ _ _ _ Hu).
Qed.

Lemma block_run_eq input_data credentials h :
  let c := ApiBlock (access_token credentials)
             (TwitterBlockUserBlock.target_user_id input_data) false in
  TwitterBlockUserBlock.run input_data credentials h
  = (Return tt,
     match twitter h c with
     | Return _ => [("success", PyBool true)]
     | Raise e => [("error", PyStr (handle_tweepy_exception e))]
     end, h ++ [c]).
Proof.
  intros c. unfold TwitterBlockUserBlock.run.
  pose proof (block_user_eq credentials
                (TwitterBlockUserBlock.target_user_id input_data) h) as Hu.
  cbv zeta in Hu. fold c in Hu.
  destruct (twitter h c) as [response|e].
  - rewrite (try_except_Return _ _ _ h tt [("success", PyBool true)] (h ++ [c]));
      [done|]. by rewrite (bind_Return _ _ _ _ _ _ Hu).
  - rewrite (try_except_caught _ _ _ h e [] (h ++ [c])); [done| |done].
    by rewrite (bind_Raise _ _ _ _ _ _ Hu).
Qed.

(** The helper yields nothing of its own. *)
Lemma get_blocked_users_silent credentials max_results pagination_token
    expansions tweet_fields user_fields h :
  yielded (TwitterGetBlockedUsersBlock.get_blocked_users credentials max_results
             pagination_token expansions tweet_fields user_fields h) = [].
Proof.
  rewrite get_blocked_users_eq.
  by destruct (UserExpansionsBuilder_build _ _ _ _).
Qed.

Lemma get_blocked_run_Raise input_data credentials h e :
  outcome (listing_of input_data credentials h) = Raise e →
  outcome (TwitterGetBlockedUsersBlock.run input_data credentials h) = Return tt ∧
  yielded (TwitterGetBlockedUsersBlock.run input_data credentials h)
  = [("error", PyStr (handle_tweepy_exception e))].
Proof.
  intros Hr. unfold TwitterGetBlockedUsersBlock.run.
  pose proof (get_blocked_users_silent credentials
                (TwitterGetBlockedUsersBlock.max_results input_data)
                (TwitterGetBlockedUsersBlock.pagination_token input_data)
                (TwitterGetBlockedUsersBlock.expansions input_data)
                (TwitterGetBlockedUsersBlock.tweet_fields input_data)
                (TwitterGetBlockedUsersBlock.user_fields input_data) h) as Hy.
  destruct (TwitterGetBlockedUsersBlock.get_blocked_users _ _ _ _ _ _ h)
    as [[r out] h'] eqn:Hg.
  unfold outcome, yielded in *; simpl in Hr, Hy; subst r out.
  rewrite (try_except_caught _ _ _ h e [] h'); [done| |done].
  by rewrite (bind_Raise _ _ _ _ _ _ Hg).
Qed.

Lemma get_blocked_run_Return input_data credentials h
    included m user_ids usernames next_token :
  outcome (listing_of input_data credentials h)
  = Return (included, m, user_ids, usernames, next_token) →
  outcome (TwitterGetBlockedUsersBlock.run input_data credentials h) = Return tt ∧
  yielded (TwitterGetBlockedUsersBlock.run input_data credentials h)
  = (if list_truthy user_ids then [("user_ids", py_of_strs user_ids)] else [])
    ++ (if list_truthy usernames then [("usernames_", py_of_strs usernames)] else [])
    ++ (if dict_truthy included then [("included", PyDict included)] else [])
    ++ (if dict_truthy m then [("meta", PyDict m)] else [])
    ++ (if truthy next_token then [("next_token", next_token)] else []).
Proof.
  intros Hr. unfold TwitterGetBlockedUsersBlock.run.
  pose proof (get_blocked_users_silent credentials
                (TwitterGetBlockedUsersBlock.max_results input_data)
                (TwitterGetBlockedUsersBlock.pagination_token input_data)
                (TwitterGetBlockedUsersBlock.expansions input_data)
                (TwitterGetBlockedUsersBlock.tweet_fields input_data)
                (TwitterGetBlockedUsersBlock.user_fields input_data) h) as Hy.
  destruct (TwitterGetBlockedUsersBlock.get_blocked_users _ _ _ _ _ _ h)
    as [[r out] h'] eqn:Hg.
  unfold outcome, yielded in *; simpl in Hr, Hy; subst r out.
  match goal with
  | |- context [try_except ?body _ _ h] =>
      assert (body h
              = (Return tt,
                 (if list_truthy user_ids
                  then [("user_ids", py_of_strs user_ids)] else [])
                 ++ (if list_truthy usernames
                     then [("usernames_", py_of_strs usernames)] else [])
                 ++ (if dict_truthy included
                     then [("included", PyDict included)] else [])
                 ++ (if dict_truthy m then [("meta", PyDict m)] else [])
                 ++ (if truthy next_token
                     then [("next_token", next_token)] else []), h')) as Hb
  end.
  { rewrite (bind_Return _ _ _ _ _ _ Hg).
    unfold when, yield, mbind, gen_bind, mret, gen_ret.
    by destruct (list_truthy user_ids), (list_truthy usernames),
      (dict_truthy included), (dict_truthy m), (truthy next_token). }
  by rewrite (try_except_Return _ _ _ _ _ _ _ Hb).
Qed.
End generators.

(** ** The claims *)

Section claims.
Context `{Platform}.
Implicit Types (h : list api_call) (credentials : TwitterCredentials).

(** C1. When the vendor answers the listing request and the user ids or
    the usernames collected from the answer are empty, [get_blocked_users]
    raises, namely [TweepyException("No blocked users found")] unless the
    serializer of the includes raised first, and [run] yields that
    exception's message on ["error"] as its only output: no data output. *)
Theorem C1_no_users_is_an_error input_data credentials h params response :
  UserExpansionsBuilder_build
    (TwitterGetBlockedUsersBlock.request_params
       (TwitterGetBlockedUsersBlock.max_results input_data)
       (TwitterGetBlockedUsersBlock.pagination_token input_data))
    (TwitterGetBlockedUsersBlock.expansions input_data)
    (TwitterGetBlockedUsersBlock.tweet_fields input_data)
    (TwitterGetBlockedUsersBlock.user_fields input_data) = Return params →
  twitter h (ApiGetBlocked (access_token credentials) params) = Return response →
  (TwitterGetBlockedUsersBlock.collect_users (data response)).1 = [] ∨
  (TwitterGetBlockedUsersBlock.collect_users (data response)).2 = [] →
  ∃ e,
    outcome (listing_of input_data credentials h) = Raise e ∧
    (∀ included,
       IncludesSerializer_serialize (includes response) = Return included →
       e = Exc TweepyException "No blocked users found") ∧
    outcome (TwitterGetBlockedUsersBlock.run input_data credentials h) = Return tt ∧
    yielded (TwitterGetBlockedUsersBlock.run input_data credentials h)
    = [("error", PyStr (handle_tweepy_exception e))] ∧
    existsb is_payload
      (yielded (TwitterGetBlockedUsersBlock.run input_data credentials h)) = false.
Proof.
  intros Hparams Hresponse Hempty.
  assert (∃ e, outcome (listing_of input_data credentials h) = Raise e ∧
               ∀ included,
                 IncludesSerializer_serialize (includes response) = Return included →
                 e = Exc TweepyException "No blocked users found")
    as (e & Hraise & Hwhich).
  { rewrite get_blocked_users_eq, Hparams. cbv zeta. rewrite Hresponse.
    unfold outcome; cbn [fst].
    destruct (IncludesSerializer_serialize _) as [included|e].
    - exists (Exc TweepyException "No blocked users found"). split; [|done].
      destruct (TwitterGetBlockedUsersBlock.collect_users _) as [user_ids usernames].
      cbn [fst snd] in *. destruct Hempty as [-> | ->]; [done|]. by destruct user_ids.
    - exists e. split; [done|]. intros included; discriminate. }
  exists e. destruct (get_blocked_run_Raise _ _ _ _ Hraise) as [Hret Hout].
  repeat split; [done..|]. by rewrite Hout.
Qed.

(** C2. When [get_blocked_users] returns, the user ids and the usernames
    have the same length and come, position by position, from the same
    user of the vendor's answer: the id at [i] is the printed id of the
    [i]-th user, the username at [i] is that user's name. *)
Theorem C2_ids_and_names_aligned credentials max_results pagination_token
    expansions tweet_fields user_fields h
    included m user_ids usernames next_token :
  outcome (TwitterGetBlockedUsersBlock.get_blocked_users credentials max_results
             pagination_token expansions tweet_fields user_fields h)
  = Return (included, m, user_ids, usernames, next_token) →
  length user_ids = length usernames ∧
  ∃ params response users,
    twitter h (ApiGetBlocked (access_token credentials) params) = Return response ∧
    data response = Some users ∧
    ∀ i : nat,
      user_ids !! i = (λ u, str_int (id u)) <$> users !! i ∧
      usernames !! i = username <$> users !! i.
Proof.
  rewrite get_blocked_users_eq.
  destruct (UserExpansionsBuilder_build _ _ _ _) as [params|e]; [|done].
  cbv zeta. unfold outcome; cbn [fst].
  destruct (twitter h _) as [response|e] eqn:Hresponse; [|done].
  destruct (IncludesSerializer_serialize _) as [included'|e]; [|done].
  rewrite collect_users_eq. cbn [fst snd].
  destruct (list_truthy _ && list_truthy _) eqn:Hsome; [|done].
  intros [= _ _ <- <- _]. split.
  { by rewrite !length_fmap. }
  destruct (data response) as [users|] eqn:Hdata; [|done].
  exists params, response, users. split; [done|split; [done|]].
  intros i. cbn [default from_option]. by rewrite !list_lookup_fmap.
Qed.

(** C3. In each of the three blocks, when the helper raises [e], whatever
    its class, [run] itself returns normally and yields one output only:
    ["error"] with the string [handle_tweepy_exception e]. *)
Theorem C3_exception_becomes_one_error :
  (∀ input_data credentials h e,
     outcome (TwitterUnblockUserBlock.unblock_user credentials
                (TwitterUnblockUserBlock.target_user_id input_data) h) = Raise e →
     outcome (TwitterUnblockUserBlock.run input_data credentials h) = Return tt ∧
     yielded (TwitterUnblockUserBlock.run input_data credentials h)
     = [("error", PyStr (handle_tweepy_exception e))]) ∧
  (∀ input_data credentials h e,
     outcome (TwitterBlockUserBlock.block_user credentials
                (TwitterBlockUserBlock.target_user_id input_data) h) = Raise e →
     outcome (TwitterBlockUserBlock.run input_data credentials h) = Return tt ∧
     yielded (TwitterBlockUserBlock.run input_data credentials h)
     = [("error", PyStr (handle_tweepy_exception e))]) ∧
  (∀ input_data credentials h e,
     outcome (listing_of input_data credentials h) = Raise e →
     outcome (TwitterGetBlockedUsersBlock.run input_data credentials h) = Return tt ∧
     yielded (TwitterGetBlockedUsersBlock.run input_data credentials h)
     = [("error", PyStr (handle_tweepy_exception e))]).
Proof.
  split; [|split].
  - intros input_data credentials h e.
    rewrite unblock_user_eq, unblock_run_eq. cbv zeta. unfold outcome, yielded; cbn [fst snd].
    destruct (twitter h _); [done|]. by intros [= ->].
  - intros input_data credentials h e.
    rewrite block_user_eq, block_run_eq. cbv zeta. unfold outcome, yielded; cbn [fst snd].
    destruct (twitter h _); [done|]. by intros [= ->].
  - intros input_data credentials h e. apply get_blocked_run_Raise.
Qed.

(** C4. When the vendor's unblock (block) request for the target returns,
    [unblock_user] ([block_user]) returns [True] and [run] yields
    [("success", True)] and nothing else. *)
Theorem C4_completed_call_is_success :
  (∀ input_data credentials h response,
     twitter h (ApiUnblock (access_token credentials)
                  (TwitterUnblockUserBlock.target_user_id input_data) false)
     = Return response →
     outcome (TwitterUnblockUserBlock.unblock_user credentials
                (TwitterUnblockUserBlock.target_user_id input_data) h) = Return true ∧
     outcome (TwitterUnblockUserBlock.run input_data credentials h) = Return tt ∧
     yielded (TwitterUnblockUserBlock.run input_data credentials h)
     = [("success", PyBool true)]) ∧
  (∀ input_data credentials h response,
     twitter h (ApiBlock (access_token credentials)
                  (TwitterBlockUserBlock.target_user_id input_data) false)
     = Return response →
     outcome (TwitterBlockUserBlock.block_user credentials
                (TwitterBlockUserBlock.target_user_id input_data) h) = Return true ∧
     outcome (TwitterBlockUserBlock.run input_data credentials h) = Return tt ∧
     yielded (TwitterBlockUserBlock.run input_data credentials h)
     = [("success", PyBool true)]).
Proof.
  split; intros input_data credentials h response Hcall.
  - rewrite unblock_user_eq, unblock_run_eq. cbv zeta. by rewrite Hcall.
  - rewrite block_user_eq, block_run_eq. cbv zeta. by rewrite Hcall.
Qed.

(** C5. In each of the three blocks, the outputs of one invocation are
    either ["error"] outputs only or success-payload outputs only
    (["success"], ["user_ids"], ["usernames_"], ["included"], ["meta"],
    ["next_token"]); no invocation yields some of each. *)
Theorem C5_error_or_payload_never_both :
  (∀ input_data credentials h,
     error_or_payload (yielded (TwitterUnblockUserBlock.run input_data credentials h))) ∧
  (∀ input_data credentials h,
     error_or_payload (yielded (TwitterBlockUserBlock.run input_data credentials h))) ∧
  (∀ input_data credentials h,
     error_or_payload (yielded (TwitterGetBlockedUsersBlock.run input_data credentials h))).
Proof.
  split; [|split]; intros input_data credentials h.
  - rewrite unblock_run_eq. cbv zeta. unfold yielded; cbn [fst snd].
    destruct (twitter h _); (split; [done|]); [right|left];
      by apply Forall_singleton; try set_solver.
  - rewrite block_run_eq. cbv zeta. unfold yielded; cbn [fst snd].
    destruct (twitter h _); (split; [done|]); [right|left];
      by apply Forall_singleton; try set_solver.
  - destruct (outcome (listing_of input_data credentials h))
      as [[[[[included m] user_ids] usernames] next_token]|e] eqn:Hhelper.
    + destruct (get_blocked_run_Return _ _ _ _ _ _ _ _ Hhelper) as [_ ->].
      split.
      * by destruct (list_truthy user_ids), (list_truthy usernames),
          (dict_truthy included), (dict_truthy m), (truthy next_token).
      * right. rewrite !Forall_app.
        repeat split; case_match; constructor; try done; set_solver.
    + destruct (get_blocked_run_Raise _ _ _ _ Hhelper) as [_ ->].
      split; [done|]. left. by apply Forall_singleton.
Qed.

(** C6. None of the three static helpers retries: from any history, each
    sends the vendor at most one request, and when that request raises a
    [TweepyException] the helper raises the very same exception. *)
Theorem C6_helpers_do_not_retry :
  (∀ credentials target_user_id h,
     no_retry (TwitterUnblockUserBlock.unblock_user credentials target_user_id) h) ∧
  (∀ credentials target_user_id h,
     no_retry (TwitterBlockUserBlock.block_user credentials target_user_id) h) ∧
  (∀ credentials max_results pagination_token expansions tweet_fields user_fields h,
     no_retry (TwitterGetBlockedUsersBlock.get_blocked_users credentials max_results
                 pagination_token expansions tweet_fields user_fields) h).
Proof.
  split; [|split].
  - intros credentials target h. unfold no_retry.
    rewrite unblock_user_eq. cbv zeta.
    eexists [_]. split; [done|]. split; [done|].
    intros c e ->%list_elem_of_singleton Hraise _.
    unfold outcome; cbn [fst]. by rewrite Hraise.
  - intros credentials target h. unfold no_retry.
    rewrite block_user_eq. cbv zeta.
    eexists [_]. split; [done|]. split; [done|].
    intros c e ->%list_elem_of_singleton Hraise _.
    unfold outcome; cbn [fst]. by rewrite Hraise.
  - intros credentials max_results pagination_token expansions tweet_fields
      user_fields h. unfold no_retry.
    rewrite get_blocked_users_eq.
    destruct (UserExpansionsBuilder_build _ _ _ _) as [params|e0].
    + cbv zeta. eexists [_]. split; [done|]. split; [done|].
      intros c e ->%list_elem_of_singleton Hraise _.
      unfold outcome; cbn [fst]. by rewrite Hraise.
    + exists []. split; [by rewrite app_nil_r|]. split; [simpl; lia|].
      intros c e Hin. by apply elem_of_nil in Hin.
Qed.

(** C7. Every ["success"] output of the unblock and of the block block
    carries [True]: neither ever yields [("success", False)], and each
    invocation yields either [("success", True)] alone or one ["error"]
    output alone. *)
Theorem C7_success_is_always_true :
  (∀ input_data credentials h v,
     ("success", v) ∈ yielded (TwitterUnblockUserBlock.run input_data credentials h) →
     v = PyBool true ∧
     yielded (TwitterUnblockUserBlock.run input_data credentials h)
     = [("success", PyBool true)]) ∧
  (∀ input_data credentials h v,
     ("success", v) ∈ yielded (TwitterBlockUserBlock.run input_data credentials h) →
     v = PyBool true ∧
     yielded (TwitterBlockUserBlock.run input_data credentials h)
     = [("success", PyBool true)]) ∧
  (∀ unblock_input block_input credentials h,
     (("success", PyBool false)
        ∉ yielded (TwitterUnblockUserBlock.run unblock_input credentials h)) ∧
     (("success", PyBool false)
        ∉ yielded (TwitterBlockUserBlock.run block_input credentials h))).
Proof.
  split; [|split].
  - intros input_data credentials h v. rewrite unblock_run_eq. cbv zeta.
    unfold yielded; cbn [fst snd].
    destruct (twitter h _); intros [= ->]%list_elem_of_singleton; done.
  - intros input_data credentials h v. rewrite block_run_eq. cbv zeta.
    unfold yielded; cbn [fst snd].
    destruct (twitter h _); intros [= ->]%list_elem_of_singleton; done.
  - intros unblock_input block_input credentials h.
    rewrite unblock_run_eq, block_run_eq. cbv zeta.
    unfold yielded; cbn [fst snd].
    split; destruct (twitter h _); by intros [=]%list_elem_of_singleton.
Qed.

(** C8. When [get_blocked_users] returns, [run] yields ["user_ids"] and
    ["usernames_"], both with non-empty lists, then ["included"] exactly
    when the serialized includes are a non-empty dict, ["meta"] exactly
    when the metadata are a non-empty dict, and ["next_token"] exactly
    when the token is truthy; in particular an empty includes dict, an
    empty meta dict and a [None] token yield nothing on their field. *)
Theorem C8_payload_outputs input_data credentials h
    included m user_ids usernames next_token :
  outcome (listing_of input_data credentials h)
  = Return (included, m, user_ids, usernames, next_token) →
  let outs := yielded (TwitterGetBlockedUsersBlock.run input_data credentials h) in
  user_ids ≠ [] ∧ usernames ≠ [] ∧
  outs = [("user_ids", py_of_strs user_ids); ("usernames_", py_of_strs usernames)]
         ++ (if dict_truthy included then [("included", PyDict included)] else [])
         ++ (if dict_truthy m then [("meta", PyDict m)] else [])
         ++ (if truthy next_token then [("next_token", next_token)] else []) ∧
  (∀ v, ("included", v) ∈ outs ↔ v = PyDict included ∧ included ≠ ∅) ∧
  (∀ v, ("meta", v) ∈ outs ↔ v = PyDict m ∧ m ≠ ∅) ∧
  (∀ v, ("next_token", v) ∈ outs ↔ v = next_token ∧ truthy next_token = true) ∧
  (next_token = PyNone → ∀ v, ("next_token", v) ∉ outs).
Proof.
  intros Hhelper outs.
  destruct (get_blocked_users_Return _ _ _ _ _ _ _ _ _ _ _ _ Hhelper) as [Hids Hnames].
  destruct (get_blocked_run_Return _ _ _ _ _ _ _ _ Hhelper) as [_ Houts].
  fold outs in Houts. rewrite Hids, Hnames in Houts. clearbody outs. subst outs.
  split; [by destruct user_ids|]. split; [by destruct usernames|].
  split; [done|].
  split; [|split; [|split]].
  - intros v. rewrite <- dict_truthy_nonempty.
    rewrite !elem_of_app, !list_elem_of_singleton, !elem_of_optional. naive_solver.
  - intros v. rewrite <- dict_truthy_nonempty.
    rewrite !elem_of_app, !list_elem_of_singleton, !elem_of_optional. naive_solver.
  - intros v.
    rewrite !elem_of_app, !list_elem_of_singleton, !elem_of_optional. naive_solver.
  - intros -> v.
    rewrite !elem_of_app, !list_elem_of_singleton, !elem_of_optional. naive_solver.
Qed.

(** C9. [get_blocked_users] does not tell an empty pagination token from
    [None]: the dict of request arguments it builds is the same, and so,
    from any history and with the other arguments fixed, are the request
    sent to the vendor, the result of the helper and the outputs of
    [run]. *)
Theorem C9_empty_pagination_token_is_None credentials max_results
    expansions tweet_fields user_fields h :
  TwitterGetBlockedUsersBlock.request_params max_results (Some "")
  = TwitterGetBlockedUsersBlock.request_params max_results None ∧
  TwitterGetBlockedUsersBlock.request_params max_results None
    !! "pagination_token" = Some PyNone ∧
  TwitterGetBlockedUsersBlock.get_blocked_users credentials max_results
    (Some "") expansions tweet_fields user_fields h
  = TwitterGetBlockedUsersBlock.get_blocked_users credentials max_results
      None expansions tweet_fields user_fields h ∧
  TwitterGetBlockedUsersBlock.run
    {| TwitterGetBlockedUsersBlock.max_results := max_results;
       TwitterGetBlockedUsersBlock.pagination_token := Some "";
       TwitterGetBlockedUsersBlock.expansions := expansions;
       TwitterGetBlockedUsersBlock.tweet_fields := tweet_fields;
       TwitterGetBlockedUsersBlock.user_fields := user_fields |} credentials h
  = TwitterGetBlockedUsersBlock.run
      {| TwitterGetBlockedUsersBlock.max_results := max_results;
         TwitterGetBlockedUsersBlock.pagination_token := None;
         TwitterGetBlockedUsersBlock.expansions := expansions;
         TwitterGetBlockedUsersBlock.tweet_fields := tweet_fields;
         TwitterGetBlockedUsersBlock.user_fields := user_fields |} credentials h.
Proof.
  assert (TwitterGetBlockedUsersBlock.request_params max_results (Some "")
          = TwitterGetBlockedUsersBlock.request_params max_results None) as Hparams.
  { unfold TwitterGetBlockedUsersBlock.request_params.
    by rewrite bool_decide_eq_true_2, bool_decide_eq_false_2. }
  split; [done|]. split.
  { unfold TwitterGetBlockedUsersBlock.request_params.
    rewrite bool_decide_eq_false_2 by done.
    rewrite lookup_insert_ne by done. by rewrite lookup_insert_eq. }
  assert (∀ c, TwitterGetBlockedUsersBlock.get_blocked_users c max_results
                 (Some "") expansions tweet_fields user_fields
               = TwitterGetBlockedUsersBlock.get_blocked_users c max_results
                   None expansions tweet_fields user_fields) as Hhelper.
  { intros c. unfold TwitterGetBlockedUsersBlock.get_blocked_users.
    cbv zeta. by rewrite Hparams. }
  split; [by rewrite Hhelper|].
  unfold TwitterGetBlockedUsersBlock.run.
  cbn [TwitterGetBlockedUsersBlock.max_results
         TwitterGetBlockedUsersBlock.pagination_token
         TwitterGetBlockedUsersBlock.expansions
         TwitterGetBlockedUsersBlock.tweet_fields
         TwitterGetBlockedUsersBlock.user_fields].
  by rewrite Hhelper.
Qed.
End claims.

(** ** The claims on the scripted platform *)

Section scripted.
Local Existing Instance Scenario.platform.
Import Scenario.

(** The account that has blocked no one gets the error of C1. *)
Lemma C1_nobody_blocked :
  (TwitterGetBlockedUsersBlock.collect_users (data empty_listing)).1 = [] ∧
  ∃ e,
    outcome (listing_of test_input nobody []) = Raise e ∧
    (∀ included,
       IncludesSerializer_serialize (includes empty_listing) = Return included →
       e = Exc TweepyException "No blocked users found") ∧
    outcome (TwitterGetBlockedUsersBlock.run test_input nobody []) = Return tt ∧
    yielded (TwitterGetBlockedUsersBlock.run test_input nobody [])
    = [("error", PyStr (handle_tweepy_exception e))] ∧
    existsb is_payload
      (yielded (TwitterGetBlockedUsersBlock.run test_input nobody [])) = false.
Proof.
  split; [reflexivity|].
  apply (C1_no_users_is_an_error test_input nobody []
           (TwitterGetBlockedUsersBlock.request_params (Some 10%Z) (Some ""))
           empty_listing);
    [reflexivity | reflexivity | left; reflexivity].
Defined.

(** The two blocked users of the listing come back aligned, as in C2. *)
Lemma C2_two_blocked_users :
  outcome (listing_of test_input credentials []) = Return blocked_users ∧
  length ["12345"; "67890"] = length ["testuser1"; "testuser2"] ∧
  ∃ params response users,
    twitter [] (ApiGetBlocked (access_token credentials) params) = Return response ∧
    data response = Some users ∧
    ∀ i : nat,
      ["12345"; "67890"] !! i = (λ u, str_int (id u)) <$> users !! i ∧
      ["testuser1"; "testuser2"] !! i = username <$> users !! i.
Proof.
  split; [reflexivity|].
  apply (C2_ids_and_names_aligned credentials (Some 10%Z) (Some "") None None None []
           ∅ (meta listing) _ _ (PyStr "page2")).
  reflexivity.
Defined.

(** An unknown target and an expired token end in one error output each,
    as in C3. *)
Lemma C3_refused_requests :
  yielded (TwitterUnblockUserBlock.run unblock_unknown credentials [])
  = [("error", PyStr "404 Not Found")] ∧
  yielded (TwitterBlockUserBlock.run block_unknown credentials [])
  = [("error", PyStr "404 Not Found")] ∧
  yielded (TwitterGetBlockedUsersBlock.run test_input expired [])
  = [("error", PyStr "401 Unauthorized")].
Proof.
  destruct C3_exception_becomes_one_error as (Hunblock & Hblock & Hlisting).
  split; [|split].
  - apply (Hunblock unblock_unknown credentials [] (Exc NotFound "404 Not Found")).
    reflexivity.
  - apply (Hblock block_unknown credentials [] (Exc NotFound "404 Not Found")).
    reflexivity.
  - apply (Hlisting test_input expired [] (Exc Unauthorized "401 Unauthorized")).
    reflexivity.
Defined.

(** Unblocking and blocking the known user succeed, as in C4. *)
Lemma C4_known_target :
  (twitter [] (ApiUnblock "token" "12345" false) = Return acknowledged ∧
   outcome (TwitterUnblockUserBlock.unblock_user credentials "12345" []) = Return true ∧
   yielded (TwitterUnblockUserBlock.run unblock_known credentials [])
   = [("success", PyBool true)]) ∧
  (twitter [] (ApiBlock "token" "12345" false) = Return acknowledged ∧
   outcome (TwitterBlockUserBlock.block_user credentials "12345" []) = Return true ∧
   yielded (TwitterBlockUserBlock.run block_known credentials [])
   = [("success", PyBool true)]).
Proof.
  destruct C4_completed_call_is_success as (Hunblock & Hblock).
  split; (split; [reflexivity|]).
  - destruct (Hunblock unblock_known credentials [] acknowledged) as (? & _ & ?);
      [reflexivity|]. by split.
  - destruct (Hblock block_known credentials [] acknowledged) as (? & _ & ?);
      [reflexivity|]. by split.
Defined.

(** With the expired token the one listing request is refused and the
    helper raises the vendor's exception, as in C6. *)
Lemma C6_expired_token :
  history (listing_of test_input expired [])
  = [ApiGetBlocked "expired"
       (TwitterGetBlockedUsersBlock.request_params (Some 10%Z) None)] ∧
  outcome (listing_of test_input expired [])
  = Raise (Exc Unauthorized "401 Unauthorized").
Proof.
  destruct C6_helpers_do_not_retry as (_ & _ & Hlisting).
  destruct (Hlisting expired (Some 10%Z) (Some "") None None None [])
    as (calls & Hhistory & _ & Hraise).
  split; [reflexivity|].
  apply (Hraise (ApiGetBlocked "expired"
           (TwitterGetBlockedUsersBlock.request_params (Some 10%Z) None)));
    [|reflexivity..].
  change (history (listing_of test_input expired []))
    with ([] ++ [ApiGetBlocked "expired"
            (TwitterGetBlockedUsersBlock.request_params (Some 10%Z) (Some ""))])
    in Hhistory.
  apply app_inv_head in Hhistory. subst calls. apply list_elem_of_here.
Defined.

(** The success output of a served request carries [True], as in C7. *)
Lemma C7_served_requests :
  (("success", PyBool true)
     ∈ yielded (TwitterUnblockUserBlock.run unblock_known credentials [])) ∧
  (("success", PyBool true)
     ∈ yielded (TwitterBlockUserBlock.run block_known credentials [])) ∧
  yielded (TwitterUnblockUserBlock.run unblock_known credentials [])
  = [("success", PyBool true)] ∧
  yielded (TwitterBlockUserBlock.run block_known credentials [])
  = [("success", PyBool true)].
Proof.
  destruct C7_success_is_always_true as (Hunblock & Hblock & _).
  assert (("success", PyBool true)
            ∈ yielded (TwitterUnblockUserBlock.run unblock_known credentials []))
    as Hin by apply list_elem_of_here.
  assert (("success", PyBool true)
            ∈ yielded (TwitterBlockUserBlock.run block_known credentials []))
    as Hin' by apply list_elem_of_here.
  split; [done|]. split; [done|]. split.
  - apply (Hunblock unblock_known credentials [] (PyBool true) Hin).
  - apply (Hblock block_known credentials [] (PyBool true) Hin').
Defined.

(** The listing yields ids, names, metadata and token, and no
    ["included"] output for its empty includes, as in C8. *)
Lemma C8_listing_outputs :
  outcome (listing_of test_input credentials []) = Return blocked_users ∧
  yielded (TwitterGetBlockedUsersBlock.run test_input credentials [])
  = [("user_ids", PyList [PyStr "12345"; PyStr "67890"]);
     ("usernames_", PyList [PyStr "testuser1"; PyStr "testuser2"]);
     ("meta", PyDict (meta listing));
     ("next_token", PyStr "page2")] ∧
  ∀ v, ("included", v)
       ∉ yielded (TwitterGetBlockedUsersBlock.run test_input credentials []).
Proof.
  split; [reflexivity|].
  destruct (C8_payload_outputs test_input credentials []
              ∅ (meta listing) ["12345"; "67890"] ["testuser1"; "testuser2"]
              (PyStr "page2") eq_refl)
    as (_ & _ & Houts & Hincluded & _).
  split; [exact Houts|].
  intros v [_ Hnonempty]%Hincluded. by apply Hnonempty.
Defined.
End scripted.

(** ** Further properties of the helpers and generators *)

Section coverage.
Context `{Platform}.
Implicit Types (h : list api_call) (credentials : TwitterCredentials).

Lemma get_blocked_run_history input_data credentials h :
  history (TwitterGetBlockedUsersBlock.run input_data credentials h)
  = history (listing_of input_data credentials h).
Proof.
  destruct (outcome (listing_of input_data credentials h))
    as [[[[[included m] user_ids] usernames] next_token]|e] eqn:Hhelper.
  - pose proof (get_blocked_users_silent credentials
                  (TwitterGetBlockedUsersBlock.max_results input_data)
                  (TwitterGetBlockedUsersBlock.pagination_token input_data)
                  (TwitterGetBlockedUsersBlock.expansions input_data)
                  (TwitterGetBlockedUsersBlock.tweet_fields input_data)
                  (TwitterGetBlockedUsersBlock.user_fields input_data) h) as Hy.
    unfold TwitterGetBlockedUsersBlock.run.
    destruct (TwitterGetBlockedUsersBlock.get_blocked_users _ _ _ _ _ _ h)
      as [[r out] h'] eqn:Hg.
    unfold outcome, yielded, history in *; simpl in Hhelper, Hy; subst r out.
    unfold try_except. rewrite (bind_Return _ _ _ _ _ _ Hg).
    unfold when, yield, mbind, gen_bind, mret, gen_ret.
    by destruct (list_truthy user_ids), (list_truthy usernames),
      (dict_truthy included), (dict_truthy m), (truthy next_token).
  - unfold TwitterGetBlockedUsersBlock.run.
    destruct (TwitterGetBlockedUsersBlock.get_blocked_users _ _ _ _ _ _ h)
      as [[r out] h'] eqn:Hg.
    unfold outcome, history in *; simpl in Hhelper; subst r.
    unfold try_except. by rewrite (bind_Raise _ _ _ _ _ _ Hg).
Qed.



(** X3. A [run] generator makes the vendor calls of its helper and no
    other: the history after [run] is the history after the helper, so one
    invocation adds at most one request, also when it ends in an error. *)
Theorem run_calls_are_the_helpers :
  (∀ input_data credentials h,
     history (TwitterUnblockUserBlock.run input_data credentials h)
     = history (TwitterUnblockUserBlock.unblock_user credentials
                  (TwitterUnblockUserBlock.target_user_id input_data) h)) ∧
  (∀ input_data credentials h,
     history (TwitterBlockUserBlock.run input_data credentials h)
     = history (TwitterBlockUserBlock.block_user credentials
                  (TwitterBlockUserBlock.target_user_id input_data) h)) ∧
  (∀ input_data credentials h,
     history (TwitterGetBlockedUsersBlock.run input_data credentials h)
     = history (listing_of input_data credentials h) ∧
     ∃ calls,
       history (TwitterGetBlockedUsersBlock.run input_data credentials h) = h ++ calls ∧
       length calls ≤ 1).
Proof.
  split; [|split]; intros input_data credentials h.
  - by rewrite unblock_run_eq, unblock_user_eq.
  - by rewrite block_run_eq, block_user_eq.
  - split; [apply get_blocked_run_history|].
    rewrite get_blocked_run_history, get_blocked_users_eq.
    destruct (UserExpansionsBuilder_build _ _ _ _) as [params|e].
    + eexists [_]. split; [reflexivity | simpl; lia].
    + exists []. split; [by rewrite app_nil_r | simpl; lia].
Qed.


(** X5. No output name is yielded twice in one invocation. *)
Theorem run_output_names_distinct :
  (∀ input_data credentials h,
     NoDup (yielded (TwitterUnblockUserBlock.run input_data credentials h)).*1) ∧
  (∀ input_data credentials h,
     NoDup (yielded (TwitterBlockUserBlock.run input_data credentials h)).*1) ∧
  (∀ input_data credentials h,
     NoDup (yielded (TwitterGetBlockedUsersBlock.run input_data credentials h)).*1).
Proof.
  split; [|split]; intros input_data credentials h.
  - rewrite unblock_run_eq. cbv zeta. unfold yielded; cbn [fst snd].
    destruct (twitter h _); apply NoDup_singleton.
  - rewrite block_run_eq. cbv zeta. unfold yielded; cbn [fst snd].
    destruct (twitter h _); apply NoDup_singleton.
  - destruct (outcome (listing_of input_data credentials h))
      as [[[[[included m] user_ids] usernames] next_token]|e] eqn:Hhelper.
    + destruct (get_blocked_run_Return _ _ _ _ _ _ _ _ Hhelper) as [_ ->].
      destruct (list_truthy user_ids), (list_truthy usernames),
        (dict_truthy included), (dict_truthy m), (truthy next_token);
        by apply (bool_decide_unpack _).
    + destruct (get_blocked_run_Raise _ _ _ _ Hhelper) as [_ ->].
      apply NoDup_singleton.
Qed.

Lemma dict_truthy_empty {V} (d : gmap string V) :
  dict_truthy d = false ↔ d = ∅.
Proof.
  unfold dict_truthy. rewrite negb_false_iff, Nat.eqb_eq.
  apply map_size_empty_iff.
Qed.

Lemma read_meta_eq (response_meta : gmap string pyval) :
  TwitterGetBlockedUsersBlock.read_meta response_meta
  = (response_meta, default PyNone (response_meta !! "next_token")).
Proof.
  unfold TwitterGetBlockedUsersBlock.read_meta.
  destruct (dict_truthy response_meta) eqn:Hmeta.
  - by destruct (response_meta !! "next_token").
  - apply dict_truthy_empty in Hmeta as ->. by rewrite lookup_empty.
Qed.

(** X6. The guard on an empty [response.meta] changes nothing: the
    metadata handed back are always the response's own, and the token is
    their ["next_token"] entry, [None] when there is none. *)
Theorem read_meta_is_lookup (response_meta : gmap string pyval) :
  TwitterGetBlockedUsersBlock.read_meta response_meta
  = (response_meta, default PyNone (response_meta !! "next_token")).
Proof. apply read_meta_eq. Qed.

(** X7. When the builder of the request arguments raises, the listing
    helper raises the same exception without any request to the vendor,
    and [run] reports it on ["error"]. *)
Theorem builder_failure_sends_nothing input_data credentials h e :
  UserExpansionsBuilder_build
    (TwitterGetBlockedUsersBlock.request_params
       (TwitterGetBlockedUsersBlock.max_results input_data)
       (TwitterGetBlockedUsersBlock.pagination_token input_data))
    (TwitterGetBlockedUsersBlock.expansions input_data)
    (TwitterGetBlockedUsersBlock.tweet_fields input_data)
    (TwitterGetBlockedUsersBlock.user_fields input_data) = Raise e →
  listing_of input_data credentials h = (Raise e, [], h) ∧
  TwitterGetBlockedUsersBlock.run input_data credentials h
  = (Return tt, [("error", PyStr (handle_tweepy_exception e))], h).
Proof.
  intros Hbuild.
  assert (listing_of input_data credentials h = (Raise e, [], h)) as Hhelper
    by by rewrite get_blocked_users_eq, Hbuild.
  split; [done|].
  pose proof (get_blocked_run_history input_data credentials h) as Hhistory.
  destruct (get_blocked_run_Raise input_data credentials h e) as [Hret Hout];
    [by rewrite Hhelper|].
  rewrite Hhelper in Hhistory.
  destruct (TwitterGetBlockedUsersBlock.run input_data credentials h) as [[r out] h'].
  unfold outcome, yielded, history in *; simpl in *. by subst.
Qed.

(** X8. When the serializer of the includes raises, the listing is lost
    even if the vendor returned users: the helper raises the serializer's
    exception after its one request, and [run] yields the error only. *)
Theorem serializer_failure_is_an_error input_data credentials h params response e :
  UserExpansionsBuilder_build
    (TwitterGetBlockedUsersBlock.request_params
       (TwitterGetBlockedUsersBlock.max_results input_data)
       (TwitterGetBlockedUsersBlock.pagination_token input_data))
    (TwitterGetBlockedUsersBlock.expansions input_data)
    (TwitterGetBlockedUsersBlock.tweet_fields input_data)
    (TwitterGetBlockedUsersBlock.user_fields input_data) = Return params →
  twitter h (ApiGetBlocked (access_token credentials) params) = Return response →
  IncludesSerializer_serialize (includes response) = Raise e →
  listing_of input_data credentials h
  = (Raise e, [], h ++ [ApiGetBlocked (access_token credentials) params]) ∧
  yielded (TwitterGetBlockedUsersBlock.run input_data credentials h)
  = [("error", PyStr (handle_tweepy_exception e))].
Proof.
  intros Hbuild Hresponse Hserialize.
  assert (listing_of input_data credentials h
          = (Raise e, [], h ++ [ApiGetBlocked (access_token credentials) params]))
    as Hhelper.
  { rewrite get_blocked_users_eq, Hbuild. cbv zeta.
    by rewrite Hresponse, Hserialize. }
  split; [done|].
  apply get_blocked_run_Raise. by rewrite Hhelper.
Qed.

(** X9. A listing with at least one user succeeds when the collaborators
    do: the helper returns the serialized includes, the response's
    metadata, the printed ids and the names of the response's users in
    their order, and the metadata's ["next_token"] entry or [None]. *)
Theorem listing_with_users_returns credentials max_results pagination_token
    expansions tweet_fields user_fields h params response included users :
  UserExpansionsBuilder_build
    (TwitterGetBlockedUsersBlock.request_params max_results pagination_token)
    expansions tweet_fields user_fields = Return params →
  twitter h (ApiGetBlocked (access_token credentials) params) = Return response →
  IncludesSerializer_serialize (includes response) = Return included →
  data response = Some users →
  users ≠ [] →
  TwitterGetBlockedUsersBlock.get_blocked_users credentials max_results
    pagination_token expansions tweet_fields user_fields h
  = (Return (included, meta response,
             (λ u, str_int (id u)) <$> users, username <$> users,
             default PyNone (meta response !! "next_token")),
     [], h ++ [ApiGetBlocked (access_token credentials) params]).
Proof.
  intros Hbuild Hresponse Hserialize Hdata Husers.
  rewrite get_blocked_users_eq, Hbuild. cbv zeta.
  rewrite Hresponse, Hserialize, collect_users_eq, read_meta_eq, Hdata.
  cbn [fst snd default from_option]. by destruct users.
Qed.

(** X10. A request that the vendor refuses with an exception of any
    class, tweepy's or not, makes the helper raise that exception and
    [run] yield its message on ["error"] and nothing else. *)
Theorem vendor_failure_is_reported :
  (∀ input_data credentials h e,
     twitter h (ApiUnblock (access_token credentials)
                  (TwitterUnblockUserBlock.target_user_id input_data) false)
     = Raise e →
     outcome (TwitterUnblockUserBlock.unblock_user credentials
                (TwitterUnblockUserBlock.target_user_id input_data) h) = Raise e ∧
     yielded (TwitterUnblockUserBlock.run input_data credentials h)
     = [("error", PyStr (handle_tweepy_exception e))]) ∧
  (∀ input_data credentials h e,
     twitter h (ApiBlock (access_token credentials)
                  (TwitterBlockUserBlock.target_user_id input_data) false)
     = Raise e →
     outcome (TwitterBlockUserBlock.block_user credentials
                (TwitterBlockUserBlock.target_user_id input_data) h) = Raise e ∧
     yielded (TwitterBlockUserBlock.run input_data credentials h)
     = [("error", PyStr (handle_tweepy_exception e))]) ∧
  (∀ input_data credentials h params e,
     UserExpansionsBuilder_build
       (TwitterGetBlockedUsersBlock.request_params
          (TwitterGetBlockedUsersBlock.max_results input_data)
          (TwitterGetBlockedUsersBlock.pagination_token input_data))
       (TwitterGetBlockedUsersBlock.expansions input_data)
       (TwitterGetBlockedUsersBlock.tweet_fields input_data)
       (TwitterGetBlockedUsersBlock.user_fields input_data) = Return params →
     twitter h (ApiGetBlocked (access_token credentials) params) = Raise e →
     outcome (listing_of input_data credentials h) = Raise e ∧
     yielded (TwitterGetBlockedUsersBlock.run input_data credentials h)
     = [("error", PyStr (handle_tweepy_exception e))]).
Proof.
  split; [|split].
  - intros input_data credentials h e Hraise.
    rewrite unblock_user_eq, unblock_run_eq. cbv zeta. by rewrite Hraise.
  - intros input_data credentials h e Hraise.
    rewrite block_user_eq, block_run_eq. cbv zeta. by rewrite Hraise.
  - intros input_data credentials h params e Hbuild Hraise.
    assert (outcome (listing_of input_data credentials h) = Raise e) as Hhelper.
    { rewrite get_blocked_users_eq, Hbuild. cbv zeta. by rewrite Hraise. }
    split; [done|]. by apply get_blocked_run_Raise.
Qed.


(** Printing an int is injective. *)
Lemma str_int_inj (a b : Z) : str_int a = str_int b → a = b.
Proof.
  unfold str_int. intros Hstr.
  assert (∀ z, NilZero.int_of_string (NilZero.string_of_int (Z.to_int z))
               = Some (Z.to_int z)) as Hparse.
  { intros z. apply NilZero.isi; destruct z; try done; simpl;
      intros [= Hnil]; by apply DecimalPos.Unsigned.to_uint_nonnil in Hnil. }
  pose proof (Hparse a) as Ha. rewrite Hstr, Hparse in Ha.
  injection Ha as Ha. by rewrite <- (DecimalZ.of_to a), <- (DecimalZ.of_to b), Ha.
Qed.

(** X12. The loop over the response keeps the users apart: it collects
    one id and one name per user, and users with pairwise distinct ids give
    a list of ids without duplicates. *)
Theorem collected_ids_distinct (users : list User) :
  NoDup (id <$> users) →
  NoDup (TwitterGetBlockedUsersBlock.collect_users (Some users)).1 ∧
  length (TwitterGetBlockedUsersBlock.collect_users (Some users)).1 = length users ∧
  length (TwitterGetBlockedUsersBlock.collect_users (Some users)).2 = length users.
Proof.
  intros Hdistinct. rewrite collect_users_eq. cbn [fst snd default from_option].
  rewrite !length_fmap. split; [|done].
  change (NoDup ((str_int ∘ id) <$> users)).
  rewrite (list_fmap_compose id str_int users).
  apply NoDup_fmap_2; [|done]. intros a b. apply str_int_inj.
Qed.

Lemma list_truthy_fmap {A B} (f : A → B) (l : list A) :
  list_truthy (f <$> l) = list_truthy l.
Proof. by destruct l. Qed.

(** X13. No payload output carries an empty value: whatever a [run]
    generator yields under a name other than ["error"] is truthy. *)
Theorem payload_outputs_are_truthy :
  (∀ input_data credentials h o,
     o ∈ yielded (TwitterUnblockUserBlock.run input_data credentials h) →
     o.1 ≠ "error" → truthy o.2 = true) ∧
  (∀ input_data credentials h o,
     o ∈ yielded (TwitterBlockUserBlock.run input_data credentials h) →
     o.1 ≠ "error" → truthy o.2 = true) ∧
  (∀ input_data credentials h o,
     o ∈ yielded (TwitterGetBlockedUsersBlock.run input_data credentials h) →
     o.1 ≠ "error" → truthy o.2 = true).
Proof.
  split; [|split]; intros input_data credentials h o.
  - rewrite unblock_run_eq. cbv zeta. unfold yielded; cbn [fst snd].
    by destruct (twitter h _); intros ->%list_elem_of_singleton.
  - rewrite block_run_eq. cbv zeta. unfold yielded; cbn [fst snd].
    by destruct (twitter h _); intros ->%list_elem_of_singleton.
  - destruct (outcome (listing_of input_data credentials h))
      as [[[[[included m] user_ids] usernames] next_token]|e] eqn:Hhelper.
    + destruct (get_blocked_run_Return _ _ _ _ _ _ _ _ Hhelper) as [_ ->].
      apply get_blocked_users_Return in Hhelper as [Hids Hnames].
      rewrite Hids, Hnames, !elem_of_app, !list_elem_of_singleton, !elem_of_optional.
      intros [-> | [-> | [[? ->] | [[? ->] | [? ->]]]]] _;
        unfold py_of_strs; cbn [snd truthy]; by rewrite ?list_truthy_fmap.
    + destruct (get_blocked_run_Raise _ _ _ _ Hhelper) as [_ ->].
      by intros ->%list_elem_of_singleton.
Qed.
End coverage.


(** ** The further properties on the scripted platform *)

Section scripted_coverage.
Local Existing Instance Scenario.platform.
Import Scenario.


(** A rejected expansion filter ends the listing before any request, as in
    X7. *)
Lemma rejected_expansions :
  TwitterGetBlockedUsersBlock.get_blocked_users (H := broken_builder)
    credentials (Some 10%Z) (Some "") (Some tt) None None []
  = (Raise rejected, [], []) ∧
  TwitterGetBlockedUsersBlock.run (H := broken_builder) rejected_input credentials []
  = (Return tt, [("error", PyStr "bad expansions")], []).
Proof.
  apply (builder_failure_sends_nothing (H := broken_builder)
           rejected_input credentials [] rejected).
  reflexivity.
Defined.

(** Includes that cannot be serialized turn a listing of two users into an
    error, as in X8. *)
Lemma unreadable_includes :
  data listing ≠ None ∧
  TwitterGetBlockedUsersBlock.get_blocked_users (H := broken_serializer)
    credentials (Some 10%Z) (Some "") None None None []
  = (Raise unreadable, [],
     [ApiGetBlocked "token"
        (TwitterGetBlockedUsersBlock.request_params (Some 10%Z) (Some ""))]) ∧
  yielded (TwitterGetBlockedUsersBlock.run (H := broken_serializer)
             unreadable_input credentials [])
  = [("error", PyStr "bad includes")].
Proof.
  split; [discriminate|].
  apply (serializer_failure_is_an_error (H := broken_serializer)
           unreadable_input credentials []
           (TwitterGetBlockedUsersBlock.request_params (Some 10%Z) (Some ""))
           listing unreadable); reflexivity.
Defined.

(** The listing of two users is returned in full, as in X9. *)
Lemma listing_returned :
  TwitterGetBlockedUsersBlock.get_blocked_users credentials (Some 10%Z) (Some "")
    None None None []
  = (Return blocked_users, [],
     [ApiGetBlocked "token"
        (TwitterGetBlockedUsersBlock.request_params (Some 10%Z) (Some ""))]).
Proof.
  apply (listing_with_users_returns credentials (Some 10%Z) (Some "") None None None []
           (TwitterGetBlockedUsersBlock.request_params (Some 10%Z) (Some ""))
           listing ∅
           [ {| id := 12345; username := "testuser1" |};
             {| id := 67890; username := "testuser2" |} ]);
    [reflexivity..|discriminate].
Defined.

(** The vendor's refusals reach the error output, as in X10. *)
Lemma refusals_reported :
  (twitter [] (ApiUnblock "token" "999" false) = Raise (Exc NotFound "404 Not Found") ∧
   yielded (TwitterUnblockUserBlock.run unblock_unknown credentials [])
   = [("error", PyStr "404 Not Found")]) ∧
  (twitter [] (ApiBlock "token" "999" false) = Raise (Exc NotFound "404 Not Found") ∧
   yielded (TwitterBlockUserBlock.run block_unknown credentials [])
   = [("error", PyStr "404 Not Found")]) ∧
  (twitter []
     (ApiGetBlocked "expired"
        (TwitterGetBlockedUsersBlock.request_params (Some 10%Z) (Some "")))
   = Raise (Exc Unauthorized "401 Unauthorized") ∧
   yielded (TwitterGetBlockedUsersBlock.run test_input expired [])
   = [("error", PyStr "401 Unauthorized")]).
Proof.
  destruct vendor_failure_is_reported as (Hunblock & Hblock & Hlisting).
  split; [|split]; (split; [reflexivity|]).
  - apply (Hunblock unblock_unknown credentials [] (Exc NotFound "404 Not Found")).
    reflexivity.
  - apply (Hblock block_unknown credentials [] (Exc NotFound "404 Not Found")).
    reflexivity.
  - apply (Hlisting test_input expired []
             (TwitterGetBlockedUsersBlock.request_params (Some 10%Z) (Some ""))
             (Exc Unauthorized "401 Unauthorized")); reflexivity.
Defined.


(** The two users of the listing have distinct ids, and so have their
    printed ids, as in X12. *)
Lemma listing_ids_distinct :
  NoDup [12345%Z; 67890%Z] ∧
  NoDup (TwitterGetBlockedUsersBlock.collect_users (data listing)).1.
Proof.
  assert (NoDup [12345%Z; 67890%Z]) as Hdistinct
    by (apply (bool_decide_unpack _); reflexivity).
  split; [exact Hdistinct|].
  apply (collected_ids_distinct
           [ {| id := 12345; username := "testuser1" |};
             {| id := 67890; username := "testuser2" |} ]).
  exact Hdistinct.
Defined.

(** The metadata output of the listing is not empty, as in X13. *)
Lemma listing_meta_truthy :
  (("meta", PyDict (meta listing))
     ∈ yielded (TwitterGetBlockedUsersBlock.run test_input credentials [])) ∧
  truthy (PyDict (meta listing)) = true.
Proof.
  destruct payload_outputs_are_truthy as (_ & _ & Hlisting).
  assert (("meta", PyDict (meta listing))
            ∈ yielded (TwitterGetBlockedUsersBlock.run test_input credentials []))
    as Hin by (do 2 apply list_elem_of_further; apply list_elem_of_here).
  split; [exact Hin|].
  apply (Hlisting test_input credentials [] ("meta", PyDict (meta listing)) Hin).
  discriminate.
Defined.
End scripted_coverage.
